(** * StyleMy.Hair: the image acquisition and style-transform pipeline

    A shallow embedding of the React components of
    [Movies/stylemy.hair---virtual-hairstyle-try-on]:

    - [App.tsx]: the session state and its three handlers
      ([handleImageUpload], [handleStyleSelect], [handleDiscard]);
    - [services/geminiService.ts]: [applyHairstyle];
    - [components/PresetStyles.tsx], [components/ImageUploader.tsx],
      [components/ActionButtons.tsx]: which controls are rendered and which
      are disabled;
    - [components/CameraCapture.tsx]: the camera effect and its cleanup;
    - [components/BeforeAfterSlider.tsx]: the drag reducer and the clip path.

    React state is modelled by explicit state passing.  An [async] handler is
    split at its [await]: the part that runs when the handler is called, and
    the part that runs when the awaited promise settles. *)

From stdpp Require Import base option list strings.
From Stdlib Require Import QArith Qminmax Qround Lqa.
From Stdlib Require Import Ascii.

#[local] Open Scope string_scope.

(** ** Exceptions *)

(** A JavaScript [Error]: only its [message] is ever read. *)
Record Error := mkError { message : string }.

(** The outcome of a computation that may [throw], and of a settled promise
    ([Return] = resolved, [Throw] = rejected). *)
Inductive Result (A : Type) : Type :=
| Return (a : A)
| Throw (e : Error).
Arguments Return {A} a.
Arguments Throw {A} e.

#[global] Instance Result_ret : MRet Result := fun A a => Return a.
#[global] Instance Result_bind : MBind Result := fun A B k r =>
  match r with
  | Return a => k a
  | Throw e => Throw e
  end.

(** [try { body } catch (error) { handler(error) }] *)
Definition try_catch {A} (body : Result A) (handler : Error → Result A) : Result A :=
  match body with
  | Return a => Return a
  | Throw e => handler e
  end.

(** ** App.tsx *)

Module App.

(** The value of [originalImage]: [{ url, base64, mimeType }]. *)
Record OriginalImage := mkOriginalImage {
  url : string;
  base64 : string;
  mimeType : string
}.

(** [PresetStyle] of [types.ts], as the catalog of [constants.ts] fills it. *)
Record PresetStyle := mkPresetStyle {
  id : string;
  name : string;
  prompt : string;
  thumbnail : string
}.

(** A [File]: its name, and the URL that [URL.createObjectURL] hands out
    for it. *)
Record File := mkFile {
  fileName : string;
  objectURL : string
}.

(** What [fileToBase64] resolves to. *)
Record FileData := mkFileData {
  fd_base64 : string;
  fd_mimeType : string
}.

(** The [useState] cells of [App] (the auth [session] cell plays no part in
    the pipeline and is left out). *)
Record AppState := mkAppState {
  originalImage : option OriginalImage;
  styledImage : option string;
  isLoading : bool;
  error : option string;
  selectedStyle : option PresetStyle
}.

(** The initial values given to [useState]. *)
Definition initialState : AppState :=
  {| originalImage := None; styledImage := None; isLoading := false;
     error := None; selectedStyle := None |}.

(** The state setters. *)
Inductive SetState : Type :=
| setOriginalImage (v : option OriginalImage)
| setStyledImage (v : option string)
| setIsLoading (v : bool)
| setError (v : option string)
| setSelectedStyle (v : option PresetStyle).

Definition dispatch (s : AppState) (a : SetState) : AppState :=
  match a with
  | setOriginalImage v =>
      {| originalImage := v; styledImage := styledImage s;
         isLoading := isLoading s; error := error s;
         selectedStyle := selectedStyle s |}
  | setStyledImage v =>
      {| originalImage := originalImage s; styledImage := v;
         isLoading := isLoading s; error := error s;
         selectedStyle := selectedStyle s |}
  | setIsLoading v =>
      {| originalImage := originalImage s; styledImage := styledImage s;
         isLoading := v; error := error s;
         selectedStyle := selectedStyle s |}
  | setError v =>
      {| originalImage := originalImage s; styledImage := styledImage s;
         isLoading := isLoading s; error := v;
         selectedStyle := selectedStyle s |}
  | setSelectedStyle v =>
      {| originalImage := originalImage s; styledImage := styledImage s;
         isLoading := isLoading s; error := error s;
         selectedStyle := v |}
  end.

(** A run of setter calls, applied in program order. *)
Definition commit (calls : list SetState) (s : AppState) : AppState :=
  foldl dispatch s calls.

(** *** handleImageUpload (App.tsx, lines 54-68) *)

(** Up to [await fileToBase64(file)]. *)
Definition handleImageUpload_begin : list SetState :=
  [ setIsLoading true; setError None; setStyledImage None;
    setSelectedStyle None ].

(** From the settlement of [fileToBase64(file)] on: the rest of the [try]
    or the [catch], then the [finally]. *)
Definition handleImageUpload_settled (file : File) (r : Result FileData)
  : list SetState :=
  match r with
  | Return d =>
      [ setOriginalImage
          (Some {| url := objectURL file; base64 := fd_base64 d;
                   mimeType := fd_mimeType d |}) ]
  | Throw _ => [ setError (Some "Failed to load image. Please try again.") ]
  end ++ [ setIsLoading false ].

(** The whole handler when nothing else runs in between. *)
Definition handleImageUpload (file : File) (r : Result FileData)
    (s : AppState) : AppState :=
  commit (handleImageUpload_settled file r) (commit handleImageUpload_begin s).

(** *** handleDiscard (App.tsx, lines 92-97) *)

Definition handleDiscard : list SetState :=
  [ setOriginalImage None; setStyledImage None; setSelectedStyle None;
    setError None ].

(** *** services/geminiService.ts *)

(** The request that [applyHairstyle] passes to [ai.models.generateContent]:
    one inline-data part and one text part. *)
Record GenerateContentRequest := mkRequest {
  model : string;
  inline_data : string;
  inline_mimeType : string;
  text : string
}.

(** The fields of the response that [applyHairstyle] reads.  A field that
    may be missing ([?.]) is an [option]; [safetyRatings] holds the text
    that [JSON.stringify] prints for it. *)
Record InlineData := mkInlineData { data : string }.
Record Part := mkPart { inlineData : option InlineData }.
Record Content := mkContent { parts : option (list Part) }.
Record Candidate := mkCandidate {
  content : option Content;
  finishReason : option string;
  safetyRatings : option string
}.
Record GenerateContentResponse := mkResponse {
  candidates : option (list Candidate)
}.

(** [`${v}`] for a value that may be [undefined]. *)
Definition template (v : option string) : string :=
  default "undefined" v.

Definition applyHairstyle_request (base64ImageData mimeType stylePrompt : string)
  : GenerateContentRequest :=
  {| model := "gemini-2.5-flash-image-preview";
     inline_data := base64ImageData;
     inline_mimeType := mimeType;
     text := stylePrompt |}.

(** [response.candidates?.[0]] *)
Definition firstCandidate (response : GenerateContentResponse)
  : option Candidate :=
  candidates response ≫= head.

(** [response.candidates?.[0]?.content?.parts?.find(part => part.inlineData)] *)
Definition imagePart (response : GenerateContentResponse) : option Part :=
  candidate ← firstCandidate response;
  content ← content candidate;
  parts ← parts content;
  find (λ part, if inlineData part is Some _ then true else false) parts.

(** [applyHairstyle] from the settlement of [generateContent] on.  The
    [throw] of the [else] branch sits inside the [try], so the [catch]
    receives it as it receives a rejection of the call. *)
Definition applyHairstyle_settled (settled : Result GenerateContentResponse)
  : Result string :=
  try_catch
    (response ← settled;
     match imagePart response ≫= inlineData with
     | Some d => Return (data d)
     | None =>
         let rejectionReason := firstCandidate response ≫= finishReason in
         let safetyRatings := firstCandidate response ≫= safetyRatings in
         Throw (mkError ("AI did not return an image. Reason: "
                         +:+ template rejectionReason +:+ ". Safety: "
                         +:+ template safetyRatings))
     end)
    (λ error,
       Throw (mkError "Failed to generate hairstyle. The AI service may be unavailable or the request was blocked.")).

(** *** handleStyleSelect (App.tsx, lines 70-90) *)

(** Up to [await applyHairstyle(...)].  [originalImage] is the value the
    callback closed over: [useCallback] lists it as a dependency, so it is
    the [originalImage] of the render that created the callback.  The
    second component is the call to the external capability, if one is
    made. *)
Definition handleStyleSelect_begin (originalImage : option OriginalImage)
    (style : PresetStyle) : list SetState * option GenerateContentRequest :=
  match originalImage with
  | None => ([ setError (Some "Please upload an image first.") ], None)
  | Some img =>
      ([ setIsLoading true; setError None; setStyledImage None;
         setSelectedStyle (Some style) ],
       Some (applyHairstyle_request (base64 img) (mimeType img) (prompt style)))
  end.

(** From the settlement of [applyHairstyle(...)] on. *)
Definition handleStyleSelect_settled (r : Result string) : list SetState :=
  match r with
  | Return newImageBase64 =>
      [ setStyledImage (Some ("data:image/png;base64," +:+ newImageBase64)) ]
  | Throw e =>
      [ setError (Some ("AI generation failed: " +:+ message e
                        +:+ ". Please try again.")) ]
  end ++ [ setIsLoading false ].

(** The whole handler when nothing else runs in between: [settled] is how
    [generateContent] settles if the call is made. *)
Definition handleStyleSelect (style : PresetStyle)
    (settled : Result GenerateContentResponse) (s : AppState) : AppState :=
  match handleStyleSelect_begin (originalImage s) style with
  | (calls, Some _) =>
      commit (handleStyleSelect_settled (applyHairstyle_settled settled))
             (commit calls s)
  | (calls, None) => commit calls s
  end.

(** *** The rendered controls and the event loop *)

(** What the user can do.  [App] renders [ImageUploader] when
    [originalImage] is null and the three-column grid otherwise. *)
Inductive UserEvent : Type :=
| change_fileInput (file : File)
| drop (file : File)
| click_useCamera
| close_camera
| capture (file : File)
| click_preset (style : PresetStyle)
| click_discard.

(** A handler suspended at its [await]. *)
Inductive Task : Type :=
| fileToBase64 (file : File)
| generateContent (request : GenerateContentRequest).

Inductive Event : Type :=
| user (e : UserEvent)
| settle_fileToBase64 (i : nat) (r : Result FileData)
| settle_generateContent (i : nat) (r : Result GenerateContentResponse).

(** The cells of [App], the [showCamera] cell of [ImageUploader] and the
    promises not yet settled, oldest first. *)
Record System := mkSystem {
  app : AppState;
  showCamera : bool;
  tasks : list Task
}.

Definition boot : System :=
  {| app := initialState; showCamera := false; tasks := [] |}.

Definition uploaderRendered (s : AppState) : bool :=
  if originalImage s is Some _ then false else true.

(** [onImageUpload(file)] *)
Definition call_handleImageUpload (file : File) (sys : System) : System :=
  {| app := commit handleImageUpload_begin (app sys);
     showCamera := showCamera sys;
     tasks := tasks sys ++ [fileToBase64 file] |}.

(** [onStyleSelect(style)] *)
Definition call_handleStyleSelect (style : PresetStyle) (sys : System) : System :=
  let '(calls, request) :=
    handleStyleSelect_begin (originalImage (app sys)) style in
  {| app := commit calls (app sys);
     showCamera := showCamera sys;
     tasks := tasks sys ++ from_option (λ r, [generateContent r]) [] request |}.

Definition setShowCamera (v : bool) (sys : System) : System :=
  {| app := app sys; showCamera := v; tasks := tasks sys |}.

(** The event reaches a handler only if its control is rendered and not
    disabled:
    - the file input and the two buttons of [ImageUploader] carry
      [disabled={isLoading}], its drop zone does not;
    - the camera dialog is rendered while [showCamera] holds;
    - the buttons of [PresetStyles] carry [disabled={isLoading}];
    - the Discard button of [ActionButtons] is never disabled. *)
Definition deliver (e : UserEvent) (sys : System) : System :=
  let s := app sys in
  match e with
  | change_fileInput file =>
      if uploaderRendered s && negb (isLoading s)
      then call_handleImageUpload file sys else sys
  | drop file =>
      if uploaderRendered s then call_handleImageUpload file sys else sys
  | click_useCamera =>
      if uploaderRendered s && negb (isLoading s)
      then setShowCamera true sys else sys
  | close_camera =>
      if uploaderRendered s && showCamera sys
      then setShowCamera false sys else sys
  | capture file =>
      if uploaderRendered s && showCamera sys
      then setShowCamera false (call_handleImageUpload file sys) else sys
  | click_preset style =>
      if negb (uploaderRendered s) && negb (isLoading s)
      then call_handleStyleSelect style sys else sys
  | click_discard =>
      if negb (uploaderRendered s)
      then {| app := commit handleDiscard s; showCamera := showCamera sys;
              tasks := tasks sys |}
      else sys
  end.

(** [ImageUploader] is unmounted, and its [showCamera] cell lost, as soon as
    an original image is there. *)
Definition rerender (sys : System) : System :=
  if uploaderRendered (app sys) then sys else setShowCamera false sys.

Definition step (sys : System) (ev : Event) : System :=
  rerender
    match ev with
    | user e => deliver e sys
    | settle_fileToBase64 i r =>
        match tasks sys !! i with
        | Some (fileToBase64 file) =>
            {| app := commit (handleImageUpload_settled file r) (app sys);
               showCamera := showCamera sys;
               tasks := delete i (tasks sys) |}
        | _ => sys
        end
    | settle_generateContent i r =>
        match tasks sys !! i with
        | Some (generateContent _) =>
            {| app := commit (handleStyleSelect_settled
                                (applyHairstyle_settled r)) (app sys);
               showCamera := showCamera sys;
               tasks := delete i (tasks sys) |}
        | _ => sys
        end
    end.

Definition run (sys : System) (evs : list Event) : System :=
  foldl step sys evs.

(** The [generateContent] calls that have not settled. *)
Definition inFlight (sys : System) : list GenerateContentRequest :=
  omap (λ t, match t with generateContent r => Some r | _ => None end)
       (tasks sys).

(** While a promise is pending [isLoading] holds, there is at most one
    pending promise, and the camera dialog is not shown next to the grid. *)
Definition singleFlight (sys : System) : Prop :=
  (tasks sys = [] ∨ ∃ t, tasks sys = [t] ∧ isLoading (app sys) = true)
  ∧ (uploaderRendered (app sys) = false → showCamera sys = false).

(** No upload is started through the drop zone or the camera dialog while
    [isLoading] holds (the other two ways in are disabled then). *)
Fixpoint uploadsWhileIdle (sys : System) (evs : list Event) : Prop :=
  match evs with
  | [] => True
  | ev :: evs' =>
      match ev with
      | user (drop _) | user (capture _) => isLoading (app sys) = false
      | _ => True
      end ∧ uploadsWhileIdle (step sys ev) evs'
  end.

(** The catalog entry for "Buzz / Crew Cut" ([constants.ts]). *)
Definition buzz_crew_cut : PresetStyle :=
  {| id := "buzz-crew-cut"; name := "Buzz / Crew Cut";
     prompt := "Give the person a very short and clean buzz cut.";
     thumbnail := "/style-thumbnails/buzz-cut.svg" |}.

Definition classic_side_part : PresetStyle :=
  {| id := "classic-side-part"; name := "Classic Side Part";
     prompt := "Give the person a neat, classic side part hairstyle. Keep the color natural.";
     thumbnail := "/style-thumbnails/classic-side-part.svg" |}.

End App.

(** ** components/CameraCapture.tsx *)

Module CameraCapture.

Definition MediaStreamTrack := nat.

Record MediaStream := mkStream { getTracks : list MediaStreamTrack }.

(** The dialog, together with the two things it does to the outside:
    [track.stop()] calls and [onCapture(file)] calls, both logged in
    order.

    - [mounted]: an instance of the component is mounted;
    - [stream], [error]: the two [useState] cells of that instance;
    - [active]: the [let active] of its effect;
    - [effect_stream]: the binding [stream] as the closures created by the
      effect see it.  The effect has the dependency list [[]], so it runs
      once, after the first render, and [cleanup] closes over the [stream]
      of that render for good;
    - [requesting]: the [getUserMedia] call of that instance has not
      settled;
    - [orphans]: the [getUserMedia] calls of earlier instances, unmounted
      since, that have not settled;
    - [encoding]: the [canvas.toBlob] calls whose callback has not run. *)
Record Camera := mkCamera {
  mounted : bool;
  stream : option MediaStream;
  error : option string;
  active : bool;
  effect_stream : option MediaStream;
  requesting : bool;
  orphans : nat;
  encoding : nat;
  stops : list MediaStreamTrack;
  captures : list App.File
}.

(** Before the dialog is opened. *)
Definition closed : Camera :=
  {| mounted := false; stream := None; error := None; active := false;
     effect_stream := None; requesting := false; orphans := 0;
     encoding := 0; stops := []; captures := [] |}.

(** [videoRef.current]: the [<video>] element is rendered when [error] is
    null. *)
Definition videoRef_current (c : Camera) : bool :=
  mounted c && (if error c is Some _ then false else true).

Definition setStream (v : option MediaStream) (c : Camera) : Camera :=
  {| mounted := mounted c; stream := v; error := error c; active := active c;
     effect_stream := effect_stream c; requesting := requesting c;
     orphans := orphans c; encoding := encoding c;
     stops := stops c; captures := captures c |}.

Definition setError (v : option string) (c : Camera) : Camera :=
  {| mounted := mounted c; stream := stream c; error := v; active := active c;
     effect_stream := effect_stream c; requesting := requesting c;
     orphans := orphans c; encoding := encoding c;
     stops := stops c; captures := captures c |}.

(** [stream.getTracks().forEach(track => track.stop())] *)
Definition stopTracks (s : MediaStream) (c : Camera) : Camera :=
  {| mounted := mounted c; stream := stream c; error := error c;
     active := active c; effect_stream := effect_stream c;
     requesting := requesting c; orphans := orphans c;
     encoding := encoding c; stops := stops c ++ getTracks s;
     captures := captures c |}.

(** The [cleanup] closure of the effect (lines 38-43). *)
Definition cleanup (c : Camera) : Camera :=
  let c' :=
    {| mounted := mounted c; stream := stream c; error := error c;
       active := false; effect_stream := effect_stream c;
       requesting := requesting c; orphans := orphans c;
       encoding := encoding c; stops := stops c;
       captures := captures c |} in
  match effect_stream c' with
  | Some s => stopTracks s c'
  | None => c'
  end.

(** First render of a new instance and the effect body (lines 14-36).
    [supported] says whether [navigator.mediaDevices.getUserMedia]
    exists. *)
Definition mount (supported : bool) (c : Camera) : Camera :=
  let first_render_stream : option MediaStream := None in
  let c' :=
    {| mounted := true; stream := first_render_stream; error := None;
       active := true; effect_stream := first_render_stream;
       requesting := supported; orphans := orphans c;
       encoding := encoding c; stops := stops c; captures := captures c |} in
  if supported then c'
  else setError (Some "Camera not supported on this browser.") c'.

(** The effect's return value (lines 48-51), run when the instance is
    unmounted.  A [getUserMedia] call that is still out stays out. *)
Definition unmount (c : Camera) : Camera :=
  let c' := cleanup c in
  {| mounted := false; stream := stream c'; error := error c';
     active := active c'; effect_stream := effect_stream c';
     requesting := false;
     orphans := if requesting c' then S (orphans c') else orphans c';
     encoding := encoding c'; stops := stops c';
     captures := captures c' |}.

Definition settled (c : Camera) : Camera :=
  {| mounted := mounted c; stream := stream c; error := error c;
     active := active c; effect_stream := effect_stream c;
     requesting := false; orphans := orphans c; encoding := encoding c;
     stops := stops c; captures := captures c |}.

(** [getCameraStream] from the settlement of [getUserMedia] on
    (lines 26-33), for the mounted instance. *)
Definition getCameraStream_settled (r : Result MediaStream) (c : Camera)
  : Camera :=
  match r with
  | Return mediaStream =>
      if active c && videoRef_current c
      then setStream (Some mediaStream) c
      else c
  | Throw _ =>
      setError
        (Some "Could not access camera. Please check your browser permissions.")
        c
  end.

(** The same for an instance that has been unmounted: its [active] is
    false, so a stream is neither kept nor stopped, and its setters reach
    no mounted component. *)
Definition orphan_settled (c : Camera) : Camera :=
  {| mounted := mounted c; stream := stream c; error := error c;
     active := active c; effect_stream := effect_stream c;
     requesting := requesting c; orphans := pred (orphans c);
     encoding := encoding c; stops := stops c; captures := captures c |}.

(** [handleCapture] (lines 54-74) up to [canvas.toBlob(...)]; [context]
    says whether [canvas.getContext('2d')] gave a context.  It calls no
    setter and stops no track. *)
Definition handleCapture (context : bool) (c : Camera) : Camera :=
  if negb (videoRef_current c) || (if stream c is Some _ then false else true)
  then c
  else if context then
    {| mounted := mounted c; stream := stream c; error := error c;
       active := active c; effect_stream := effect_stream c;
       requesting := requesting c; orphans := orphans c;
       encoding := S (encoding c); stops := stops c;
       captures := captures c |}
  else c.

Definition onCapture (file : App.File) (c : Camera) : Camera :=
  {| mounted := mounted c; stream := stream c; error := error c;
     active := active c; effect_stream := effect_stream c;
     requesting := requesting c; orphans := orphans c;
     encoding := encoding c; stops := stops c;
     captures := captures c ++ [file] |}.

(** The callback given to [canvas.toBlob] (lines 67-72).  [onCapture] is
    the [handleCapture] of [ImageUploader], which passes the file on and
    ends in [setShowCamera(false)]: the dialog, if one is mounted, is
    unmounted. *)
Definition toBlob_called_back (blob : option App.File) (c : Camera) : Camera :=
  let c' :=
    {| mounted := mounted c; stream := stream c; error := error c;
       active := active c; effect_stream := effect_stream c;
       requesting := requesting c; orphans := orphans c;
       encoding := pred (encoding c); stops := stops c;
       captures := captures c |} in
  match blob with
  | Some file =>
      let c'' := onCapture file c' in
      if mounted c'' then unmount c'' else c''
  | None => c'
  end.

Inductive Event : Type :=
| open_dialog (supported : bool)
| getUserMedia_settled (r : Result MediaStream)
| late_getUserMedia_settled (r : Result MediaStream)
| click_takePicture (context : bool)
| toBlob_callback (blob : option App.File)
| click_cancel
| beforeunload
| host_unmount.

(** [ImageUploader] renders the dialog while its [showCamera] cell holds;
    opening it mounts a new instance, and [onClose] ends in
    [setShowCamera(false)], which unmounts it. *)
Definition step (c : Camera) (ev : Event) : Camera :=
  match ev with
  | open_dialog supported => if mounted c then c else mount supported c
  | getUserMedia_settled r =>
      if mounted c && requesting c
      then getCameraStream_settled r (settled c) else c
  | late_getUserMedia_settled r =>
      if decide (orphans c = 0%nat) then c else orphan_settled c
  | click_takePicture context =>
      if mounted c then handleCapture context c else c
  | toBlob_callback blob =>
      if decide (encoding c = 0%nat) then c else toBlob_called_back blob c
  | click_cancel => if mounted c then unmount c else c
  | beforeunload => if mounted c then cleanup c else c
  | host_unmount => if mounted c then unmount c else c
  end.

Definition run (c : Camera) (evs : list Event) : Camera :=
  foldl step c evs.

(** A track handed out by [getUserMedia] stays live until [stop()] is
    called on it. *)
Definition live (c : Camera) (t : MediaStreamTrack) : Prop :=
  t ∉ stops c.

End CameraCapture.

(** ** components/BeforeAfterSlider.tsx *)

Module BeforeAfterSlider.

#[local] Open Scope Q_scope.

(** A JavaScript number: a finite double, taken as the rational number it
    denotes, or one of the three special values.  Overflow and the sign of
    zero are not modelled. *)
Inductive number : Type :=
| finite (q : Q)
| NaN
| Infinity
| NegInfinity.

(** The two fields of [getBoundingClientRect()] that are read. *)
Record DOMRect := mkRect { left : Q; width : Q }.

(** [sliderPos] is the [useState] cell, [isDragging] the [useRef] cell. *)
Record Slider := mkSlider { sliderPos : number; isDragging : bool }.


Section Doubles.

(** [round] stands for the rounding of a real result to the nearest
    double, which every arithmetic operation ends with. *)
Variable round : Q → Q.

(** [a - b] for finite [a] and [b]. *)
Definition minus (a b : Q) : Q := round (a - b).

(** [a / b] for finite [a] and [b]: [0 / 0] is [NaN], any other division
    by zero an infinity. *)
Definition divide (a b : Q) : number :=
  if Qeq_bool b 0 then
    if Qeq_bool a 0 then NaN
    else if Qle_bool 0 a then Infinity else NegInfinity
  else finite (round (a / b)).

(** [a * b] for a finite [b]. *)
Definition times (a : number) (b : Q) : number :=
  match a with
  | finite q => finite (round (q * b))
  | NaN => NaN
  | Infinity =>
      if Qeq_bool b 0 then NaN
      else if Qle_bool 0 b then Infinity else NegInfinity
  | NegInfinity =>
      if Qeq_bool b 0 then NaN
      else if Qle_bool 0 b then NegInfinity else Infinity
  end.

(** [handleMove] (lines 13-19).  [container] is
    [containerRef.current?.getBoundingClientRect()] at the time of the
    event; [clientX] and the fields of the rectangle are finite. *)
Definition handleMove (container : option DOMRect) (clientX : Q) (s : Slider)
  : Slider :=
  match isDragging s, container with
  | true, Some rect =>
      let x := Qmax 0 (Qmin (minus clientX (left rect)) (width rect)) in
      let percent := times (divide x (width rect)) 100 in
      {| sliderPos := percent; isDragging := isDragging s |}
  | _, _ => s
  end.

Definition setDragging (v : bool) (s : Slider) : Slider :=
  {| sliderPos := sliderPos s; isDragging := v |}.

(** The listeners: [onPointerDown]/[onTouchStart] on the handle,
    [onPointerMove]/[onTouchMove]/[onPointerUp]/[onTouchEnd] on the
    container, and [pointerup] on [window].  A move carries [e.clientX]
    (for a touch, [e.touches[0].clientX]). *)
Inductive Event : Type :=
| pointerDown
| touchStart
| pointerMove (clientX : Q) (container : option DOMRect)
| touchMove (clientX : Q) (container : option DOMRect)
| pointerUp
| touchEnd
| window_pointerup.

Definition step (s : Slider) (ev : Event) : Slider :=
  match ev with
  | pointerDown | touchStart => setDragging true s
  | pointerMove clientX container | touchMove clientX container =>
      handleMove container clientX s
  | pointerUp | touchEnd | window_pointerup => setDragging false s
  end.


End Doubles.

(** What is used of rounding to the nearest double: it is monotone, and it
    leaves 0, 1 and 100, which are doubles, as they are. *)
Definition rounding (round : Q → Q) : Prop :=
  (∀ a b, a <= b → round a <= round b)
  ∧ round 0 == 0 ∧ round 1 == 1 ∧ round 100 == 100.

(** Two roundings to try things on: none at all, and rounding to the
    nearest multiple of 1/1024 (halves upwards). *)
Definition exact (q : Q) : Q := q.

Definition toNearest1024th (q : Q) : Q :=
  inject_Z (Qfloor (q * 1024 + (1 # 2))) / 1024.



(** *** The rendered layers (lines 47-84) *)

(** A CSS [clip-path]: none, or [inset(top right bottom left)] with the
    four offsets in percent. *)
Inductive ClipPath : Type :=
| none
| inset (top_ right_ bottom_ left_ : Q).

(** An element painted by the slider: an image with the clip path of its
    wrapper, or the handle with its [left] offset [calc(percent% - px)]. *)
Inductive Layer : Type :=
| img (src alt : string) (clipPath : ClipPath)
| handle (left_percent left_px : Q).

(** The children of the container in document order, for a [sliderPos]
    that is the finite number [p]; the one subtraction is taken exactly.
    All children are positioned [absolute] with no [z-index], so a later
    one is painted over an earlier one. *)
Definition render (before after : string) (p : Q) : list Layer :=
  [ img after "After" none;
    img before "Before" (inset 0 (100 - p) 0 0);
    handle p (-2) ].

(** What [inset()] leaves visible along the horizontal axis, as an
    interval in percent of the width measured from the left edge: the
    rectangle is moved inwards by [left] from the left edge and by [right]
    from the right edge. *)
Definition visible_x (c : ClipPath) : Q * Q :=
  match c with
  | none => (0, 100)
  | inset _ right_ _ left_ => (left_, 100 - right_)
  end.

(** The clip path of the image whose [alt] text is given. *)
Definition clipPath_of (alt : string) (layers : list Layer) : option ClipPath :=
  head (omap (λ l, match l with
                   | img _ a c => if decide (a = alt) then Some c else None
                   | handle _ _ => None
                   end) layers).

End BeforeAfterSlider.

(** ** Concrete sessions *)

Module Scenario.
Import App.

Definition photoA : File := {| fileName := "a.jpg"; objectURL := "blob:a" |}.
Definition photoB : File := {| fileName := "b.jpg"; objectURL := "blob:b" |}.
Definition dataA : FileData :=
  {| fd_base64 := "AAAA"; fd_mimeType := "image/jpeg" |}.
Definition dataB : FileData :=
  {| fd_base64 := "BBBB"; fd_mimeType := "image/jpeg" |}.
Definition imageA : OriginalImage :=
  {| url := "blob:a"; base64 := "AAAA"; mimeType := "image/jpeg" |}.
Definition imageB : OriginalImage :=
  {| url := "blob:b"; base64 := "BBBB"; mimeType := "image/jpeg" |}.

(** A response that carries the image payload [X]. *)
Definition responseX : GenerateContentResponse :=
  {| candidates := Some
       [ {| content := Some {| parts := Some
                                 [ {| inlineData := None |};
                                   {| inlineData := Some {| data := "X" |} |} ] |};
            finishReason := Some "STOP";
            safetyRatings := None |} ] |}.

(** A response without an image part: the capability declined. *)
Definition responseBlocked : GenerateContentResponse :=
  {| candidates := Some
       [ {| content := None;
            finishReason := Some "SAFETY";
            safetyRatings := Some "[{'category':'HARM_CATEGORY_DANGEROUS_CONTENT','blocked':true}]" |} ] |}.

(** The call itself is rejected: network or service failure. *)
Definition serviceDown : Result GenerateContentResponse :=
  Throw (mkError "fetch failed").

(** A session after one successful transform of [photoA]. *)
Definition styledSession : AppState :=
  {| originalImage := Some imageA;
     styledImage := Some "data:image/png;base64,X";
     isLoading := false;
     error := None;
     selectedStyle := Some buzz_crew_cut |}.

(** Whatever goes wrong, [applyHairstyle] throws one and the same error. *)
Definition generic_failure : Error :=
  mkError "Failed to generate hairstyle. The AI service may be unavailable or the request was blocked.".

(** The camera hands out a stream with one video track. *)
Definition frontCamera : CameraCapture.MediaStream :=
  {| CameraCapture.getTracks := [7%nat] |}.

Definition snapshot : File :=
  {| fileName := "camera-capture.png"; objectURL := "blob:capture" |}.

Definition granted : list CameraCapture.Event :=
  [ CameraCapture.open_dialog true;
    CameraCapture.getUserMedia_settled (Return frontCamera) ].

(** A drag from the middle to beyond the right edge and back to beyond
    the left edge of a control that spans [[10, 410]]. *)
Definition box : BeforeAfterSlider.DOMRect :=
  {| BeforeAfterSlider.left := 10; BeforeAfterSlider.width := 400 |}.




(** A transform of [photoA] is started; the session is discarded and
    [photoB] is dropped and read while that transform is still out. *)
Definition replacedWhileTransforming : list Event :=
  [ user (drop photoA);
    settle_fileToBase64 0 (Return dataA);
    user (click_preset buzz_crew_cut);
    user click_discard;
    user (drop photoB);
    settle_fileToBase64 1 (Return dataB) ].


(** An ordinary session: upload, then select a style. *)
Definition uploadThenSelect : list Event :=
  [ user (change_fileInput photoA);
    settle_fileToBase64 0 (Return dataA);
    user (click_preset buzz_crew_cut) ].

End Scenario.

(** ** fileToBase64 (App.tsx, lines 15-27) *)

Module FileToBase64.

(** Strings are sequences of one-byte characters.  The two line
    terminators [.] refuses among them are line feed and carriage
    return. *)
Definition lineTerminator (c : Ascii.ascii) : bool :=
  Ascii.eqb c "010"%char || Ascii.eqb c "013"%char.

(** [s.split(sep)] for a separator of one character. *)
Fixpoint split (sep : Ascii.ascii) (s : string) : list string :=
  match s with
  | EmptyString => [EmptyString]
  | String c s' =>
      if Ascii.eqb c sep then EmptyString :: split sep s'
      else
        match split sep s' with
        | x :: xs => String c x :: xs
        | [] => [String c EmptyString]
        end
  end.

(** Whether [c] occurs in [s]. *)
Fixpoint occurs (c : Ascii.ascii) (s : string) : bool :=
  match s with
  | EmptyString => false
  | String c' s' => Ascii.eqb c' c || occurs c s'
  end.

(** [(.*?);] at the head of [s]: the shortest run of characters that are
    not line terminators and that is followed by a semicolon. *)
Fixpoint lazyUntilSemicolon (s : string) : option string :=
  match s with
  | EmptyString => None
  | String c s' =>
      if Ascii.eqb c ";"%char then Some EmptyString
      else if lineTerminator c then None
      else String c <$> lazyUntilSemicolon s'
  end.

(** [header.match(/:(.*?);/)?.[1]]: the group of the leftmost match. *)
Fixpoint matchMime (header : string) : option string :=
  match header with
  | EmptyString => None
  | String c s' =>
      if Ascii.eqb c ":"%char then
        match lazyUntilSemicolon s' with
        | Some group => Some group
        | None => matchMime s'
        end
      else matchMime s'
  end.

(** What the promise resolves to.  [base64] is the second element of the
    destructured array, which is [undefined] when there is none. *)
Record Encoded := mkEncoded {
  base64 : option string;
  mimeType : string
}.

(** [reader.onload] *)
Definition onload (result : string) : Encoded :=
  let pieces := split ","%char result in
  let header := default EmptyString (pieces !! 0%nat) in
  let data := pieces !! 1%nat in
  let mimeType :=
    match matchMime header with
    | Some (String c s) => String c s
    | _ => "image/jpeg"
    end in
  {| base64 := data; mimeType := mimeType |}.

(** [reader] is how [readAsDataURL] ends: [onload] with [reader.result], or
    [onerror]. *)
Definition fileToBase64 (reader : Result string) : Result Encoded :=
  match reader with
  | Return result => Return (onload result)
  | Throw error => Throw error
  end.

(** The data URL of a payload: what [readAsDataURL] produces. *)
Definition dataURL (mime payload : string) : string :=
  "data:" +:+ mime +:+ ";base64," +:+ payload.

End FileToBase64.

(** ** constants.ts and components/PresetStyles.tsx *)

Module PresetStyles.
Import App.

Definition PRESET_STYLES : list PresetStyle :=
  [ classic_side_part;
    {| id := "pompadour-quiff"; name := "Pompadour / Quiff";
       prompt := "Transform the hair into a stylish pompadour with a quiff. The sides should be shorter.";
       thumbnail := "/style-thumbnails/pompadour.svg" |};
    {| id := "undercut-fade"; name := "Undercut with Fade";
       prompt := "Apply a trendy undercut hairstyle with a smooth skin fade on the sides.";
       thumbnail := "/style-thumbnails/undercut.svg" |};
    buzz_crew_cut;
    {| id := "medium-layers"; name := "Medium Layered";
       prompt := "Change the hairstyle to a medium-length layered cut with some texture and volume.";
       thumbnail := "/style-thumbnails/medium-layered.svg" |};
    {| id := "curly-top"; name := "Curly/Wavy Top";
       prompt := "Style the hair with prominent curls or waves on top, keeping the sides relatively short.";
       thumbnail := "/style-thumbnails/curly-top.svg" |};
    {| id := "long-hair"; name := "Long Hair";
       prompt := "Give the person long, flowing hair that goes past the shoulders.";
       thumbnail := "/style-thumbnails/long-hair.svg" |};
    {| id := "silver-fox"; name := "Silver Fox";
       prompt := "Change the hair to a sophisticated, stylish cut with a salt-and-pepper or fully silver color.";
       thumbnail := "/style-thumbnails/silver-fox.svg" |} ].

(** One button of the grid (lines 30-53): its React [key], its caption,
    [disabled], whether it carries the purple border and the check mark,
    and the style its [onClick] passes to [onStyleSelect]. *)
Record Button := mkButton {
  key : string;
  caption : string;
  disabled : bool;
  marked : bool;
  onClick : PresetStyle
}.

(** [selectedStyle?.id === style.id] *)
Definition isSelected (selectedStyle : option PresetStyle)
    (style : PresetStyle) : bool :=
  match selectedStyle with
  | Some selected => String.eqb (id selected) (id style)
  | None => false
  end.

Definition render (selectedStyle : option PresetStyle) (isLoading : bool)
  : list Button :=
  map (λ style,
         {| key := id style; caption := name style; disabled := isLoading;
            marked := isSelected selectedStyle style; onClick := style |})
      PRESET_STYLES.

End PresetStyles.

(** ** The canvas of handleCapture (CameraCapture.tsx, lines 57-65) *)

Module Canvas.

#[local] Open Scope Q_scope.

(** The current transformation matrix of a 2d context, [[a c e; b d f]]:
    the point [(x, y)] of user space is painted at
    [(a x + c y + e, b x + d y + f)]. *)
Record Matrix := mkMatrix { a : Q; b : Q; c : Q; d : Q; e : Q; f : Q }.

Definition identity : Matrix :=
  {| a := 1; b := 0; c := 0; d := 1; e := 0; f := 0 |}.

(** [context.translate(tx, ty)] *)
Definition translate (tx ty : Q) (m : Matrix) : Matrix :=
  {| a := a m; b := b m; c := c m; d := d m;
     e := a m * tx + c m * ty + e m;
     f := b m * tx + d m * ty + f m |}.

(** [context.scale(sx, sy)] *)
Definition scale (sx sy : Q) (m : Matrix) : Matrix :=
  {| a := a m * sx; b := b m * sx; c := c m * sy; d := d m * sy;
     e := e m; f := f m |}.

Definition paintedAt (m : Matrix) (p : Q * Q) : Q * Q :=
  (a m * fst p + c m * snd p + e m, b m * fst p + d m * snd p + f m).

(** The matrix under which [drawImage(video, 0, 0, width, height)] runs:
    [translate(canvas.width, 0)] then [scale(-1, 1)], on a fresh
    context. *)
Definition handleCapture_transform (width : Q) : Matrix :=
  scale (-1) 1 (translate width 0 identity).

End Canvas.

(** ** Further disciplines and counts *)

Module Discipline.
Import App.

(** Discard is not clicked while [isLoading] holds. *)
Fixpoint discardsWhileIdle (sys : System) (evs : list Event) : Prop :=
  match evs with
  | [] => True
  | ev :: evs' =>
      match ev with
      | user click_discard => isLoading (app sys) = false
      | _ => True
      end ∧ discardsWhileIdle (step sys ev) evs'
  end.

(** What holds of a session on runs that keep both disciplines. *)
Definition coherent (sys : System) : Prop :=
  (styledImage (app sys) ≠ None →
   originalImage (app sys) ≠ None ∧ error (app sys) = None)
  ∧ (tasks sys ≠ [] → styledImage (app sys) = None)
  ∧ (∀ request, tasks sys = [generateContent request] →
     originalImage (app sys) ≠ None ∧ error (app sys) = None).

(** The spinner is on only while a promise is pending. *)
Definition busy (sys : System) : Prop :=
  isLoading (app sys) = true → tasks sys ≠ [].

(** A style is selected only while an original image is there. *)
Definition styleNeedsImage (sys : System) : Prop :=
  selectedStyle (app sys) ≠ None → originalImage (app sys) ≠ None.

(** The camera never receives a stream. *)
Definition notGranted (ev : CameraCapture.Event) : Prop :=
  match ev with
  | CameraCapture.getUserMedia_settled (Return _) => False
  | _ => True
  end.


End Discipline.

(** * Properties of App.tsx *)

Section AppProperties.
Import App Scenario.

(** ** Helper lemmas *)

Lemma styledSession_reached :
  handleStyleSelect buzz_crew_cut (Return responseX)
    (handleImageUpload photoA (Return dataA) initialState) = styledSession.
Proof. reflexivity. Qed.

Lemma applyHairstyle_settled_failure (settled : Result GenerateContentResponse)
    (e : Error) :
  applyHairstyle_settled settled = Throw e → e = generic_failure.
Proof.
  unfold applyHairstyle_settled, generic_failure.
  destruct settled as [response|e']; cbn.
  - destruct (imagePart response ≫= inlineData); cbn; intros [=]; done.
  - intros [=]; done.
Qed.

Lemma step_settle_generateContent (sys : System) (i : nat)
    (request : GenerateContentRequest) (r : Result GenerateContentResponse) :
  tasks sys !! i = Some (generateContent request) →
  app (step sys (settle_generateContent i r))
  = commit (handleStyleSelect_settled (applyHairstyle_settled r)) (app sys)
  ∧ tasks (step sys (settle_generateContent i r)) = delete i (tasks sys).
Proof.
  intros Hi. unfold step. rewrite Hi. unfold rerender, setShowCamera.
  now destruct (uploaderRendered _).
Qed.

(** ** Discard *)

(** C9, the claim as stated fails.  A file is picked and read and a
    style is selected; while the call is out, Discard is clicked.  The
    four cells that [handleDiscard] sets are empty, but [isLoading] is
    still true: the session is not the initial one. *)
Lemma C9_discard_while_loading :
  let sys := run boot uploadThenSelect in
  let sys' := step sys (user click_discard) in
  isLoading (app sys) = true
  ∧ app sys' = commit handleDiscard (app sys)
  ∧ isLoading (app sys') = true
  ∧ isLoading initialState = false
  ∧ app sys' ≠ initialState.
Proof. vm_compute. repeat split; done. Qed.

(** C9, amended.  [handleDiscard] is total and idempotent: from any
    session state it leaves [originalImage], [selectedStyle],
    [styledImage] and [error] all absent, and a second discard changes
    nothing.  It does not set [isLoading]: the result is the initial state
    with the [isLoading] of the state it started from, hence the initial
    state itself exactly when nothing was loading. *)
Theorem C9_discard_total_idempotent (s : AppState) :
  let s' := commit handleDiscard s in
  originalImage s' = None
  ∧ selectedStyle s' = None
  ∧ styledImage s' = None
  ∧ error s' = None
  ∧ commit handleDiscard s' = s'
  ∧ s' = dispatch initialState (setIsLoading (isLoading s))
  ∧ isLoading s' = isLoading s
  ∧ (s' = initialState ↔ isLoading s = false).
Proof.
  destruct s as [oi si il er ss]; cbn. repeat split; try reflexivity.
  - intros [=]. done.
  - intros ->. reflexivity.
Qed.

(** ** Selecting a style *)

(** C10. With no original image, [handleStyleSelect] only sets [error] to
    'Please upload an image first.' and returns: no call to the external
    capability is made, and [styledImage], [selectedStyle], [isLoading]
    keep their values. *)
Theorem C10_select_without_image (sys : System) (style : PresetStyle) :
  originalImage (app sys) = None →
  let sys' := call_handleStyleSelect style sys in
  handleStyleSelect_begin (originalImage (app sys)) style
  = ([ setError (Some "Please upload an image first.") ], None)
  ∧ error (app sys') = Some "Please upload an image first."
  ∧ tasks sys' = tasks sys
  ∧ inFlight sys' = inFlight sys
  ∧ styledImage (app sys') = styledImage (app sys)
  ∧ selectedStyle (app sys') = selectedStyle (app sys)
  ∧ isLoading (app sys') = isLoading (app sys)
  ∧ originalImage (app sys') = None.
Proof.
  intros Hnone. unfold call_handleStyleSelect. rewrite Hnone. cbn.
  rewrite app_nil_r. repeat split; done.
Qed.

Lemma C10_select_without_image_witness :
  originalImage (app boot) = None
  ∧ error (app (call_handleStyleSelect buzz_crew_cut boot))
    = Some "Please upload an image first."
  ∧ tasks (call_handleStyleSelect buzz_crew_cut boot) = [].
Proof.
  split; [reflexivity|].
  pose proof (C10_select_without_image boot buzz_crew_cut eq_refl) as H.
  cbv zeta in H. destruct H as (_ & He & Ht & _).
  split; [exact He | exact Ht].
Defined.

(** ** Failures *)






(** ** Stale completions *)

(** C1, the claim as stated fails.  After [replacedWhileTransforming] the
    session shows [photoB] with no styled result, and the call made for
    [photoA] is still out.  When that call succeeds, its payload becomes
    the styled result of the session of [photoB]. *)
Lemma C1_stale_completion_overwrites :
  let sys := run boot replacedWhileTransforming in
  let sys' := step sys (settle_generateContent 0 (Return responseX)) in
  originalImage (app sys) = Some imageB
  ∧ styledImage (app sys) = None
  ∧ inFlight sys
    = [ applyHairstyle_request (base64 imageA) (mimeType imageA)
          (prompt buzz_crew_cut) ]
  ∧ originalImage (app sys') = Some imageB
  ∧ styledImage (app sys') = Some "data:image/png;base64,X"
  ∧ styledImage (app sys') ≠ styledImage (app sys).
Proof. vm_compute. repeat split; done. Qed.

(** C1, amended.  When a call to the capability succeeds with payload
    [payload], the session's [styledImage] becomes
    ['data:image/png;base64,' + payload] and [isLoading] becomes false,
    whether or not [originalImage] is still the image the call was made
    for; [originalImage], [selectedStyle] and [error] keep the values they
    have at that moment. *)
Theorem C1_completion_always_stored (sys : System) (i : nat)
    (request : GenerateContentRequest)
    (r : Result GenerateContentResponse) (payload : string) :
  tasks sys !! i = Some (generateContent request) →
  applyHairstyle_settled r = Return payload →
  let sys' := step sys (settle_generateContent i r) in
  styledImage (app sys') = Some ("data:image/png;base64," +:+ payload)
  ∧ isLoading (app sys') = false
  ∧ originalImage (app sys') = originalImage (app sys)
  ∧ selectedStyle (app sys') = selectedStyle (app sys)
  ∧ error (app sys') = error (app sys)
  ∧ tasks sys' = delete i (tasks sys).
Proof.
  intros Hi Hr.
  destruct (step_settle_generateContent sys i request r Hi) as [Happ Htasks].
  cbv zeta. rewrite Happ, Htasks, Hr.
  destruct (app sys); cbn; repeat split; reflexivity.
Qed.

Lemma C1_completion_always_stored_witness :
  tasks (run boot replacedWhileTransforming) !! 0%nat
  = Some (generateContent
            (applyHairstyle_request "AAAA" "image/jpeg" (prompt buzz_crew_cut)))
  ∧ applyHairstyle_settled (Return responseX) = Return "X"
  ∧ styledImage
      (app (step (run boot replacedWhileTransforming)
              (settle_generateContent 0 (Return responseX))))
    = Some "data:image/png;base64,X".
Proof.
  split; [reflexivity|]. split; [reflexivity|].
  pose proof (C1_completion_always_stored
                (run boot replacedWhileTransforming) 0 _ (Return responseX) "X"
                eq_refl eq_refl) as H.
  cbv zeta in H. destruct H as (Hs & _). exact Hs.
Defined.

(** ** The capability declines *)

(** C5, the claim as stated fails.  [responseBlocked] has no image part
    and names the finish reason SAFETY.  [applyHairstyle] builds an error
    from the finish reason and the safety ratings, throws it inside its own
    [try], catches it, logs it and throws the generic error instead: the
    same error as for a service failure.  The session ends in the very
    state a service failure leaves, so nothing in it tells the two apart
    and the finish reason is not in [error]. *)
Lemma C5_blocked_same_as_unavailable :
  let s := handleImageUpload photoA (Return dataA) initialState in
  let blocked := handleStyleSelect buzz_crew_cut (Return responseBlocked) s in
  let unavailable := handleStyleSelect buzz_crew_cut serviceDown s in
  imagePart responseBlocked = None
  ∧ firstCandidate responseBlocked ≫= finishReason = Some "SAFETY"
  ∧ applyHairstyle_settled (Return responseBlocked) = Throw generic_failure
  ∧ applyHairstyle_settled serviceDown = Throw generic_failure
  ∧ error blocked
    = Some "AI generation failed: Failed to generate hairstyle. The AI service may be unavailable or the request was blocked.. Please try again."
  ∧ blocked = unavailable.
Proof. vm_compute. repeat split; reflexivity. Qed.

(** C5, amended.  When the capability returns no image, the failure is
    surfaced through [error] with the generic text that every failure of
    [applyHairstyle] gets; the session is the one a service failure leaves;
    no styled result is written: [styledImage] is absent. *)
Theorem C5_blocked_surfaced_generically (s : AppState) (img : OriginalImage)
    (style : PresetStyle) (response : GenerateContentResponse) (e : Error) :
  originalImage s = Some img →
  imagePart response ≫= inlineData = None →
  let s' := handleStyleSelect style (Return response) s in
  applyHairstyle_settled (Return response) = Throw generic_failure
  ∧ styledImage s' = None
  ∧ error s'
    = Some "AI generation failed: Failed to generate hairstyle. The AI service may be unavailable or the request was blocked.. Please try again."
  ∧ s' = handleStyleSelect style (Throw e) s.
Proof.
  intros Himg Hnone.
  assert (Hthrow : applyHairstyle_settled (Return response)
                   = Throw generic_failure).
  { unfold applyHairstyle_settled. cbn. now rewrite Hnone. }
  unfold handleStyleSelect. rewrite Himg. cbn. rewrite Hthrow.
  repeat split; reflexivity.
Qed.

Lemma C5_blocked_surfaced_generically_witness :
  originalImage styledSession = Some imageA
  ∧ imagePart responseBlocked ≫= inlineData = None
  ∧ styledImage
      (handleStyleSelect buzz_crew_cut (Return responseBlocked) styledSession)
    = None.
Proof.
  split; [reflexivity|]. split; [reflexivity|].
  pose proof (C5_blocked_surfaced_generically styledSession imageA
                buzz_crew_cut responseBlocked generic_failure
                eq_refl eq_refl) as H.
  cbv zeta in H. destruct H as (_ & Hs & _). exact Hs.
Defined.

(** ** One transform at a time *)

(** The buttons of [PresetStyles] are disabled while [isLoading] holds: a
    click on one of them reaches no handler. *)
Lemma click_preset_disabled (sys : System) (style : PresetStyle) :
  isLoading (app sys) = true →
  deliver (click_preset style) sys = sys.
Proof.
  intros Hl. unfold deliver. rewrite Hl.
  now rewrite andb_false_r.
Qed.

Lemma rerender_id (sys : System) :
  (uploaderRendered (app sys) = false → showCamera sys = false) →
  rerender sys = sys.
Proof.
  intros H. unfold rerender. destruct (uploaderRendered (app sys)); [done|].
  destruct sys as [a c t]; cbn in *. now rewrite H.
Qed.

Lemma rerender_singleFlight (sys : System) :
  (tasks sys = [] ∨ ∃ t, tasks sys = [t] ∧ isLoading (app sys) = true) →
  singleFlight (rerender sys).
Proof.
  intros H. unfold rerender, singleFlight.
  destruct (uploaderRendered (app sys)) eqn:Hu; cbn; rewrite ?Hu;
    split; auto; discriminate.
Qed.

Lemma singleFlight_boot : singleFlight boot.
Proof. split; [now left | discriminate]. Qed.

Lemma singleFlight_step (sys : System) (ev : Event) :
  singleFlight sys →
  match ev with
  | user (drop _) | user (capture _) => isLoading (app sys) = false
  | _ => True
  end →
  singleFlight (step sys ev).
Proof.
  intros [Htasks Hcam] Hgate.
  assert (Hidle : isLoading (app sys) = false → tasks sys = []).
  { intros Hl. destruct Htasks as [?|(t & _ & Hl')]; [done | congruence]. }
  unfold step. apply rerender_singleFlight.
  destruct ev as [e|i r|i r].
  - destruct e as [file|file| | |file|style|]; unfold deliver;
      repeat match goal with
             | |- context [if ?b then _ else _] => destruct b eqn:?
             end; try assumption; cbn;
      try (apply andb_prop in Heqb as [Hu Hn]; apply negb_true_iff in Hn);
      try (right; rewrite Hidle by assumption; cbn; eauto; fail).
    + unfold call_handleStyleSelect.
      destruct (originalImage (app sys)) as [img|] eqn:Himg; cbn.
      * right. rewrite (Hidle Hn). cbn. eauto.
      * unfold uploaderRendered in Hu. now rewrite Himg in Hu.
  - destruct Htasks as [Ht|(t & Ht & Hl)]; rewrite Ht.
    + now left.
    + destruct i as [|i]; cbn; [|eauto].
      destruct t; cbn; [now left | eauto].
  - destruct Htasks as [Ht|(t & Ht & Hl)]; rewrite Ht.
    + now left.
    + destruct i as [|i]; cbn; [|eauto].
      destruct t; cbn; [eauto | now left].
Qed.

Lemma singleFlight_run (evs : list Event) (sys : System) :
  singleFlight sys → uploadsWhileIdle sys evs → singleFlight (run sys evs).
Proof.
  revert sys. induction evs as [|ev evs IH]; intros sys Hinv Hgate; [done|].
  destruct Hgate as [Hev Hrest]. cbn. apply IH; [|done].
  apply singleFlight_step; [done|].
  destruct ev as [[]| |]; done.
Qed.

(** C7, the claim as stated fails.  In [replacedWhileTransforming] the call
    for [photoA] is still out, yet [isLoading] is false again because the
    upload of [photoB] has finished; the preset buttons are enabled and a
    click starts a second call next to the first. *)
Lemma C7_second_transform_started :
  let sys := run boot replacedWhileTransforming in
  let sys' := step sys (user (click_preset classic_side_part)) in
  length (inFlight sys) = 1%nat
  ∧ isLoading (app sys) = false
  ∧ length (inFlight sys') = 2%nat
  ∧ inFlight sys'
    = [ applyHairstyle_request "AAAA" "image/jpeg" (prompt buzz_crew_cut);
        applyHairstyle_request "BBBB" "image/jpeg" (prompt classic_side_part) ]
  ∧ app sys' ≠ app sys.
Proof. vm_compute. repeat split; done. Qed.

(** C7, amended.  Along every run in which no upload is started while
    [isLoading] holds, at most one call to the capability is out at any
    time; while one is out [isLoading] holds; and while [isLoading] holds a
    click on a preset style is a no-op: no second call starts and the
    session state does not change. *)
Theorem C7_one_transform_at_a_time (evs : list Event) (style : PresetStyle) :
  uploadsWhileIdle boot evs →
  let sys := run boot evs in
  (length (inFlight sys) ≤ 1)%nat
  ∧ (inFlight sys ≠ [] → isLoading (app sys) = true)
  ∧ (isLoading (app sys) = true →
     step sys (user (click_preset style)) = sys).
Proof.
  intros Hgate sys.
  destruct (singleFlight_run evs boot singleFlight_boot Hgate)
    as [Htasks Hcam]. fold sys in Htasks, Hcam.
  split; [|split].
  - unfold inFlight. destruct Htasks as [->|(t & -> & _)]; [cbn; lia|].
    destruct t; cbn; lia.
  - unfold inFlight. destruct Htasks as [->|(t & _ & Hl)]; done.
  - intros Hl. unfold step. rewrite click_preset_disabled by done.
    now apply rerender_id.
Qed.

Lemma C7_one_transform_at_a_time_witness :
  uploadsWhileIdle boot uploadThenSelect
  ∧ isLoading (app (run boot uploadThenSelect)) = true
  ∧ step (run boot uploadThenSelect) (user (click_preset classic_side_part))
    = run boot uploadThenSelect.
Proof.
  assert (Hgate : uploadsWhileIdle boot uploadThenSelect)
    by (cbn; repeat split).
  split; [exact Hgate|]. split; [reflexivity|].
  pose proof (C7_one_transform_at_a_time uploadThenSelect classic_side_part
                Hgate) as H.
  cbv zeta in H. destruct H as (_ & _ & Hnoop). apply Hnoop. reflexivity.
Defined.

End AppProperties.

(** * Properties of CameraCapture.tsx *)

(** Case analysis on one step of the dialog. *)
Ltac camera_step :=
  unfold CameraCapture.step, CameraCapture.toBlob_called_back,
    CameraCapture.handleCapture, CameraCapture.unmount,
    CameraCapture.cleanup, CameraCapture.mount,
    CameraCapture.getCameraStream_settled, CameraCapture.orphan_settled,
    CameraCapture.onCapture, CameraCapture.stopTracks,
    CameraCapture.setStream, CameraCapture.setError,
    CameraCapture.settled, CameraCapture.videoRef_current;
  cbn;
  repeat match goal with
         | |- context [if ?b then _ else _] => destruct b eqn:?; cbn
         | |- context [match ?x with Some _ => _ | None => _ end] =>
             destruct x eqn:?; cbn
         | |- context [match ?x with Return _ => _ | Throw _ => _ end] =>
             destruct x eqn:?; cbn
         end.

Section CameraProperties.
Import CameraCapture Scenario.

(** The effect is created by the first render, where [stream] is null, and
    is never created again: its closures keep seeing null. *)
Lemma effect_stream_null (c : Camera) (ev : Event) :
  effect_stream c = None → effect_stream (step c ev) = None.
Proof.
  destruct c as [m st er ac es rq orp enc sp cp]; cbn. intros ->.
  destruct ev; camera_step; reflexivity.
Qed.

Lemma stops_unchanged (c : Camera) (ev : Event) :
  effect_stream c = None → stops (step c ev) = stops c.
Proof.
  destruct c as [m st er ac es rq orp enc sp cp]; cbn. intros ->.
  destruct ev; camera_step; reflexivity.
Qed.

(** No run of the dialog ever calls [stop()] on a track. *)
Lemma no_track_ever_stopped (evs : list Event) :
  stops (run closed evs) = [].
Proof.
  assert (H : ∀ c, effect_stream c = None →
                   effect_stream (run c evs) = None
                   ∧ stops (run c evs) = stops c).
  { induction evs as [|ev evs IH]; intros c Hc; [done|].
    change (run c (ev :: evs)) with (run (step c ev) evs).
    destruct (IH (step c ev) (effect_stream_null c ev Hc)) as [He Hs].
    split; [done|]. now rewrite Hs, stops_unchanged. }
  now destruct (H closed eq_refl).
Qed.

(** C2, what the code does on each of the three exits.  The camera has
    been granted and [stream] holds [frontCamera].  Whether the user then
    cancels, takes a picture (the click, then the callback of
    [canvas.toBlob]), or the host view unmounts, the dialog is unmounted
    with no [stop()] call made: the track of [frontCamera] is still
    live. *)
Theorem C2_stream_left_open :
  let live_view := run closed granted in
  let cancelled := step live_view click_cancel in
  let captured :=
    run live_view [click_takePicture true; toBlob_callback (Some snapshot)] in
  let unmounted := step live_view host_unmount in
  stream live_view = Some frontCamera
  ∧ effect_stream live_view = None
  ∧ (mounted cancelled = false ∧ stops cancelled = [] ∧ live cancelled 7%nat)
  ∧ (mounted captured = false ∧ captures captured = [snapshot]
     ∧ stops captured = [] ∧ live captured 7%nat)
  ∧ (mounted unmounted = false ∧ stops unmounted = []
     ∧ live unmounted 7%nat).
Proof.
  cbn. unfold live. cbn. repeat split; try done; apply not_elem_of_nil.
Qed.

End CameraProperties.

(** * Properties of BeforeAfterSlider.tsx *)

Section SliderProperties.
Import BeforeAfterSlider Scenario.
#[local] Open Scope Q_scope.

(** ** Rounding *)

Lemma rounding_exact : rounding exact.
Proof. unfold rounding, exact. repeat split; try reflexivity. auto. Qed.

Lemma rounding_toNearest1024th : rounding toNearest1024th.
Proof.
  unfold rounding, toNearest1024th. split; [|repeat split; reflexivity].
  intros a b Hab. unfold Qdiv.
  apply Qmult_le_compat_r; [|discriminate].
  rewrite <- Zle_Qle. apply Qfloor_resp_le. lra.
Qed.

Lemma round_eq (round : Q → Q) (a b : Q) :
  rounding round → a == b → round a == round b.
Proof.
  intros [Hmono _] Hab. apply Qle_antisym; apply Hmono; lra.
Qed.

(** ** The arithmetic of handleMove *)


Lemma divide_by_positive (round : Q → Q) (x w : Q) :
  0 < w → divide round x w = finite (round (x / w)).
Proof.
  intros Hw. unfold divide.
  destruct (Qeq_bool w 0) eqn:Hz; [|reflexivity].
  apply Qeq_bool_eq in Hz. lra.
Qed.

Lemma handleMove_dragging (round : Q → Q) (rect : DOMRect) (clientX : Q)
    (s : Slider) :
  isDragging s = true →
  0 < width rect →
  handleMove round (Some rect) clientX s
  = {| sliderPos :=
         finite
           (round
              (round (Qmax 0 (Qmin (round (clientX - left rect)) (width rect))
                      / width rect) * 100));
       isDragging := true |}.
Proof.
  intros Hdrag Hw. unfold handleMove. rewrite Hdrag.
  cbv zeta. rewrite divide_by_positive by exact Hw. reflexivity.
Qed.




(** ** The range of the divider *)




(** ** The clip path *)

(** C6, the claim as stated fails.  With the divider at 30, the before
    image is visible from 0 to 30 percent of the width, not to
    100 - 30 = 70 percent. *)
Lemma C6_before_region_is_not_complement :
  clipPath_of "Before" (render "before.png" "after.png" 30)
  = Some (inset 0 (100 - 30) 0 0)
  ∧ snd (visible_x (inset 0 (100 - 30) 0 0)) == 30
  ∧ ¬ snd (visible_x (inset 0 (100 - 30) 0 0)) == 100 - 30.
Proof.
  cbn. split; [reflexivity|]. split; [reflexivity|]. intros H. discriminate H.
Qed.

(** C6, amended.  For every divider position [p] in [[0, 100]] the after
    image is painted first and unclipped, and the before image is painted
    over it clipped by [inset(0 (100-p)% 0 0)]: it is visible from the left
    edge up to [p] percent of the width, a region inside the control that
    grows with [p]. *)
Theorem C6_before_clipped_to_p (before after : string) (p : Q) :
  0 <= p <= 100 →
  head (render before after p) = Some (img after "After" none)
  ∧ clipPath_of "After" (render before after p) = Some none
  ∧ clipPath_of "Before" (render before after p)
    = Some (inset 0 (100 - p) 0 0)
  ∧ fst (visible_x (inset 0 (100 - p) 0 0)) == 0
  ∧ snd (visible_x (inset 0 (100 - p) 0 0)) == p
  ∧ 0 <= snd (visible_x (inset 0 (100 - p) 0 0)) <= 100
  ∧ (∀ p', p <= p' →
       snd (visible_x (inset 0 (100 - p) 0 0))
       <= snd (visible_x (inset 0 (100 - p') 0 0))).
Proof.
  intros [H0 H1]. cbn.
  repeat split; try reflexivity; try lra.
  intros p' Hp. lra.
Qed.

Lemma C6_before_clipped_to_p_witness :
  0 <= 30 <= 100
  ∧ snd (visible_x (inset 0 (100 - 30) 0 0)) == 30.
Proof.
  assert (H : 0 <= 30 <= 100) by (split; discriminate).
  split; [exact H|].
  pose proof (C6_before_clipped_to_p "before.png" "after.png" 30 H) as Hc.
  destruct Hc as (_ & _ & _ & _ & Hs & _). exact Hs.
Defined.

End SliderProperties.

(** * Properties of fileToBase64 *)

Section FileToBase64Properties.
Import FileToBase64.


Lemma split_without (sep : Ascii.ascii) (s : string) :
  occurs sep s = false → split sep s = [s].
Proof.
  induction s as [|ch s IH]; cbn; [done|].
  intros [Hc Hs]%orb_false_iff. rewrite Hc, (IH Hs). done.
Qed.

Lemma split_at_first (sep : Ascii.ascii) (s rest : string) :
  occurs sep s = false →
  split sep (s +:+ String sep rest) = s :: split sep rest.
Proof.
  induction s as [|ch s IH].
  - intros _. change (split sep ("" +:+ String sep rest))
      with (if Ascii.eqb sep sep then "" :: split sep rest
            else match split sep rest with
                 | x :: xs => String sep x :: xs
                 | [] => [String sep ""]
                 end).
    now rewrite Ascii.eqb_refl.
  - intros [Hc Hs]%orb_false_iff.
    change (split sep (String ch s +:+ String sep rest))
      with (if Ascii.eqb ch sep then "" :: split sep (s +:+ String sep rest)
            else match split sep (s +:+ String sep rest) with
                 | x :: xs => String ch x :: xs
                 | [] => [String ch ""]
                 end).
    rewrite Hc, (IH Hs). done.
Qed.



Lemma occurs_cons (c ch : Ascii.ascii) (s : string) :
  occurs c (String ch s) = Ascii.eqb ch c || occurs c s.
Proof. reflexivity. Qed.

Lemma lazyUntilSemicolon_cons (ch : Ascii.ascii) (s : string) :
  lazyUntilSemicolon (String ch s)
  = if Ascii.eqb ch ";" then Some ""
    else if lineTerminator ch then None
    else String ch <$> lazyUntilSemicolon s.
Proof. reflexivity. Qed.

Lemma lazyUntilSemicolon_app (group rest : string) :
  occurs ";" group = false →
  occurs "010" group = false →
  occurs "013" group = false →
  lazyUntilSemicolon (group +:+ String ";" rest) = Some group.
Proof.
  induction group as [|ch s IH]; [done|].
  rewrite !occurs_cons.
  intros [Hc Hs]%orb_false_iff [Hn Hns]%orb_false_iff [Hr Hrs]%orb_false_iff.
  change (String ch s +:+ String ";" rest)
    with (String ch (s +:+ String ";" rest)).
  rewrite lazyUntilSemicolon_cons. unfold lineTerminator.
  rewrite Hc, Hn, Hr, IH by done. reflexivity.
Qed.

Lemma occurs_append (c : Ascii.ascii) (s t : string) :
  occurs c (s +:+ t) = occurs c s || occurs c t.
Proof.
  induction s as [|ch s IH]; [done|].
  change (String ch s +:+ t) with (String ch (s +:+ t)).
  now rewrite !occurs_cons, IH, orb_assoc.
Qed.

Lemma append_assoc (s t u : string) : (s +:+ t) +:+ u = s +:+ (t +:+ u).
Proof.
  induction s as [|ch s IH]; [done|].
  change ((String ch s +:+ t) +:+ u) with (String ch ((s +:+ t) +:+ u)).
  now rewrite IH.
Qed.

(** X1. The round trip with [readAsDataURL]: from the data URL of a
    payload and a media type, [fileToBase64] gives back that payload and
    that media type, provided the media type is not empty and has no
    comma, semicolon or line break in it and the payload has no comma. *)
Theorem fileToBase64_dataURL (mime payload : string) :
  mime ≠ "" →
  occurs "," mime = false →
  occurs ";" mime = false →
  occurs "010" mime = false →
  occurs "013" mime = false →
  occurs "," payload = false →
  fileToBase64 (Return (dataURL mime payload))
  = Return {| base64 := Some payload; mimeType := mime |}.
Proof.
  intros Hne Hcomma Hsemi Hlf Hcr Hpayload.
  unfold fileToBase64, onload. f_equal.
  assert (Hurl : dataURL mime payload
                 = ("data:" +:+ mime +:+ ";base64") +:+ String "," payload).
  { unfold dataURL. rewrite !append_assoc. reflexivity. }
  assert (Hheader : occurs "," ("data:" +:+ mime +:+ ";base64") = false).
  { rewrite !occurs_append, Hcomma. reflexivity. }
  rewrite Hurl, split_at_first, split_without by done.
  change (["data:" +:+ mime +:+ ";base64"; payload] !! 1%nat)
    with (Some payload).
  change (default "" (["data:" +:+ mime +:+ ";base64"; payload] !! 0%nat))
    with (String "d" (String "a" (String "t" (String "a"
            (String ":" (mime +:+ String ";" "base64")))))).
  assert (Hmime : matchMime (String "d" (String "a" (String "t" (String "a"
                    (String ":" (mime +:+ String ";" "base64"))))))
                  = Some mime).
  { change (matchMime (String "d" (String "a" (String "t" (String "a"
              (String ":" (mime +:+ String ";" "base64")))))))
      with (match lazyUntilSemicolon (mime +:+ String ";" "base64") with
            | Some group => Some group
            | None => matchMime (mime +:+ String ";" "base64")
            end).
    now rewrite lazyUntilSemicolon_app. }
  rewrite Hmime. destruct mime; [done|reflexivity].
Qed.

Lemma fileToBase64_dataURL_witness :
  occurs "," "image/png" = false
  ∧ occurs "," "iVBORw0KGgo=" = false
  ∧ fileToBase64 (Return "data:image/png;base64,iVBORw0KGgo=")
    = Return {| base64 := Some "iVBORw0KGgo="; mimeType := "image/png" |}.
Proof.
  split; [reflexivity|]. split; [reflexivity|].
  apply (fileToBase64_dataURL "image/png" "iVBORw0KGgo=");
    solve [discriminate | reflexivity].
Defined.


(** X3. The payload ends at the second comma: of a string with a part
    before the first comma, a part between the first and the second, and
    anything after, only the middle part is kept. *)
Theorem fileToBase64_cut_at_second_comma (header payload rest : string) :
  occurs "," header = false →
  occurs "," payload = false →
  base64 (onload (header +:+ "," +:+ payload +:+ "," +:+ rest))
  = Some payload.
Proof.
  intros Hh Hp. unfold onload.
  change (header +:+ "," +:+ payload +:+ "," +:+ rest)
    with (header +:+ String "," (payload +:+ String "," rest)).
  rewrite split_at_first by done.
  rewrite split_at_first by done. reflexivity.
Qed.

Lemma fileToBase64_cut_at_second_comma_witness :
  occurs "," "data:image/png;base64" = false
  ∧ occurs "," "AAAA" = false
  ∧ base64 (onload "data:image/png;base64,AAAA,BBBB") = Some "AAAA".
Proof.
  split; [reflexivity|]. split; [reflexivity|].
  exact (fileToBase64_cut_at_second_comma "data:image/png;base64" "AAAA"
           "BBBB" eq_refl eq_refl).
Defined.

End FileToBase64Properties.

(** * Further properties of App.tsx and geminiService.ts *)

Section SessionProperties.
Import App Discipline.



(** X5. [applyHairstyle] looks at the first candidate only and resolves
    with the data of its first part that has inline data: parts without
    inline data before it, any parts after it, and all further candidates
    make no difference. *)
Theorem applyHairstyle_first_image_part (before after : list Part) (p : Part)
    (d : InlineData) (reason ratings : option string)
    (others : list Candidate) :
  Forall (λ q, inlineData q = None) before →
  inlineData p = Some d →
  applyHairstyle_settled
    (Return {| candidates := Some
       ({| content := Some {| parts := Some (before ++ p :: after)%list |};
           finishReason := reason; safetyRatings := ratings |} :: others) |})
  = Return (data d).
Proof.
  intros Hbefore Hp.
  assert (Hfind : find (λ part, if inlineData part is Some _ then true else false)
                    (before ++ p :: after)%list = Some p).
  { induction Hbefore as [|q qs Hq _ IH]; cbn.
    - now rewrite Hp.
    - now rewrite Hq. }
  unfold applyHairstyle_settled, imagePart, firstCandidate. cbn.
  rewrite Hfind. cbn. now rewrite Hp.
Qed.

Lemma applyHairstyle_first_image_part_witness :
  Forall (λ q, inlineData q = None) [ {| inlineData := None |} ]
  ∧ applyHairstyle_settled (Return Scenario.responseX) = Return "X".
Proof.
  assert (H : Forall (λ q, inlineData q = None) [ {| inlineData := None |} ])
    by (repeat constructor).
  split; [exact H|].
  exact (applyHairstyle_first_image_part [ {| inlineData := None |} ] []
           {| inlineData := Some {| data := "X" |} |} {| data := "X" |}
           (Some "STOP") None [] H eq_refl).
Defined.

Lemma rerender_app (sys : System) : app (rerender sys) = app sys.
Proof. unfold rerender. now destruct (uploaderRendered (app sys)). Qed.

Lemma rerender_tasks (sys : System) : tasks (rerender sys) = tasks sys.
Proof. unfold rerender. now destruct (uploaderRendered (app sys)). Qed.

Lemma app_nonempty {A} (l : list A) (x : A) : (l ++ [x])%list ≠ [].
Proof. now destruct l. Qed.

Lemma step_keeps (sys : System) (ev : Event) :
  busy sys ∧ styleNeedsImage sys →
  busy (step sys ev) ∧ styleNeedsImage (step sys ev).
Proof.
  unfold busy, styleNeedsImage, step. rewrite rerender_app, rerender_tasks.
  intros [Hbusy Hstyle]. destruct sys as [[oi si il er ss] cam ts].
  cbn in Hbusy, Hstyle.
  destruct ev as [e|i r|i r].
  - destruct e as [file|file| | |file|style|]; unfold deliver; cbn;
      repeat match goal with
             | |- context [if ?b then _ else _] => destruct b eqn:?
             end; cbn; try (split; assumption);
      try (split; [intros _; apply app_nonempty | done]).
    + (* click_preset *)
      unfold call_handleStyleSelect. cbn. destruct oi as [img|]; [|done].
      cbn. split; [intros _; apply app_nonempty | done].
    + (* click_discard *)
      split; [|done]. intros Hl. now apply Hbusy.
  - cbn. destruct (ts !! i) as [[file|request]|] eqn:Hi; cbn;
      try (split; assumption).
    destruct r as [d|e]; cbn; split; try done.
  - cbn. destruct (ts !! i) as [[file|request]|] eqn:Hi; cbn;
      try (split; assumption).
    destruct (applyHairstyle_settled r) as [payload|e]; cbn; split; done.
Qed.

(** X6. On every run of the interface, a session whose [isLoading] flag is
    set still has a promise pending, and a session with a selected style
    has an original image. *)
Theorem spinner_and_selection_invariants (evs : list Event) :
  let sys := run boot evs in
  (isLoading (app sys) = true → tasks sys ≠ [])
  ∧ (selectedStyle (app sys) ≠ None → originalImage (app sys) ≠ None).
Proof.
  cbv zeta. change (busy (run boot evs) ∧ styleNeedsImage (run boot evs)).
  assert (Hboot : busy boot ∧ styleNeedsImage boot) by (split; intros H; done).
  revert Hboot. generalize boot as sys.
  induction evs as [|ev evs IH]; intros sys Hsys; [exact Hsys|].
  change (run sys (ev :: evs)) with (run (step sys ev) evs).
  apply IH. now apply step_keeps.
Qed.

Lemma applyHairstyle_settled_image (response : GenerateContentResponse)
    (d : InlineData) :
  imagePart response ≫= inlineData = Some d →
  applyHairstyle_settled (Return response) = Return (data d).
Proof.
  intros Hd. unfold applyHairstyle_settled. cbn. now rewrite Hd.
Qed.

(** X7. A whole session and back: a file is picked and read, a style is
    selected and the capability answers with an image, and the result is
    discarded.  One call is made, for the data of the file and the prompt
    of the style; before the discard the session shows the original and
    the styled image with no error; after it the interface is back in the
    state it booted in, with nothing pending. *)
Theorem session_round_trip (file : File) (d : FileData) (style : PresetStyle)
    (response : GenerateContentResponse) (image : InlineData) :
  imagePart response ≫= inlineData = Some image →
  let selected :=
    run boot [ user (change_fileInput file);
               settle_fileToBase64 0 (Return d);
               user (click_preset style) ] in
  let styled := step selected (settle_generateContent 0 (Return response)) in
  inFlight selected
  = [ applyHairstyle_request (fd_base64 d) (fd_mimeType d) (prompt style) ]
  ∧ app styled
    = {| originalImage :=
           Some {| url := objectURL file; base64 := fd_base64 d;
                   mimeType := fd_mimeType d |};
         styledImage := Some ("data:image/png;base64," +:+ data image);
         isLoading := false;
         error := None;
         selectedStyle := Some style |}
  ∧ tasks styled = []
  ∧ step styled (user click_discard) = boot.
Proof.
  intros Himage. cbn -[applyHairstyle_settled].
  unfold step, setShowCamera. cbn -[applyHairstyle_settled].
  rewrite (applyHairstyle_settled_image response image Himage).
  repeat split; reflexivity.
Qed.

Lemma session_round_trip_witness :
  imagePart Scenario.responseX ≫= inlineData = Some {| data := "X" |}
  ∧ run boot [ user (change_fileInput Scenario.photoA);
               settle_fileToBase64 0 (Return Scenario.dataA);
               user (click_preset buzz_crew_cut);
               settle_generateContent 0 (Return Scenario.responseX);
               user click_discard ] = boot.
Proof.
  split; [reflexivity|].
  pose proof (session_round_trip Scenario.photoA Scenario.dataA buzz_crew_cut
                Scenario.responseX {| data := "X" |} eq_refl) as H.
  cbv zeta in H. destruct H as (_ & _ & _ & Hboot). exact Hboot.
Defined.

Lemma coherent_step (sys : System) (ev : Event) :
  singleFlight sys → coherent sys →
  match ev with
  | user (drop _) | user (capture _) | user click_discard =>
      isLoading (app sys) = false
  | _ => True
  end →
  coherent (step sys ev).
Proof.
  intros [Htasks _] (Hstyled & Hpending & Hgen) Hgate.
  unfold coherent, step. rewrite rerender_app, rerender_tasks.
  destruct sys as [[oi si il er ss] cam ts]. cbn in *.
  assert (Hidle : il = false → ts = []).
  { intros ->. destruct Htasks as [?|(t & _ & ?)]; done. }
  destruct ev as [e|i r|i r].
  - destruct e as [file|file| | |file|style|]; unfold deliver; cbn;
      repeat match goal with
             | |- context [if ?b then _ else _] => destruct b eqn:?
             end; cbn; try exact (conj Hstyled (conj Hpending Hgen));
      try (apply andb_prop in Heqb as [Hu Hn]; apply negb_true_iff in Hn);
      try (rewrite Hidle by assumption; cbn;
           repeat split; try done; intros ? [=]; fail).
    + (* click_preset *)
      destruct oi as [img|]; [|done]. unfold call_handleStyleSelect. cbn.
      rewrite Hidle by assumption. cbn. repeat split; try done.
  - cbn. destruct (ts !! i) as [[file|request]|] eqn:Hi; cbn;
      try exact (conj Hstyled (conj Hpending Hgen)).
    destruct Htasks as [->|(t & -> & _)]; [done|].
    destruct i as [|i]; [|done]. cbn in Hi. injection Hi as ->.
    rewrite (Hpending ltac:(done)).
    destruct r as [d|e]; cbn; repeat split; done.
  - cbn. destruct (ts !! i) as [[file|request]|] eqn:Hi; cbn;
      try exact (conj Hstyled (conj Hpending Hgen)).
    destruct Htasks as [->|(t & -> & _)]; [done|].
    destruct i as [|i]; [|done]. cbn in Hi. injection Hi as ->.
    destruct (Hgen request eq_refl) as [Hoi ->].
    rewrite (Hpending ltac:(done)).
    destruct (applyHairstyle_settled r) as [payload|e]; cbn;
      repeat split; done.
Qed.

(** X8. On every run in which no upload is started and Discard is not
    clicked while [isLoading] holds, a styled image is shown only together
    with an original image and never together with an error message. *)
Theorem styled_image_coherent (evs : list Event) :
  uploadsWhileIdle boot evs →
  discardsWhileIdle boot evs →
  let sys := run boot evs in
  styledImage (app sys) ≠ None →
  originalImage (app sys) ≠ None ∧ error (app sys) = None.
Proof.
  intros Hup Hdis. cbv zeta.
  assert (H : ∀ sys, singleFlight sys → coherent sys →
                     uploadsWhileIdle sys evs → discardsWhileIdle sys evs →
                     coherent (run sys evs)).
  { clear Hup Hdis. induction evs as [|ev evs IH];
      intros sys Hsingle Hcoh Hup Hdis; [exact Hcoh|].
    destruct Hup as [Hu Hup], Hdis as [Hd Hdis].
    change (run sys (ev :: evs)) with (run (step sys ev) evs).
    apply IH; [| |done|done].
    - apply singleFlight_step; [done|]. destruct ev as [[]| |]; done.
    - apply coherent_step; [done|done|]. destruct ev as [[]| |]; done. }
  assert (Hboot : coherent boot) by (repeat split; done).
  exact (proj1 (H boot singleFlight_boot Hboot Hup Hdis)).
Qed.

Lemma styled_image_coherent_witness :
  uploadsWhileIdle boot
    (Scenario.uploadThenSelect
     ++ [settle_generateContent 0 (Return Scenario.responseX)])%list
  ∧ styledImage
      (app (run boot
              (Scenario.uploadThenSelect
               ++ [settle_generateContent 0 (Return Scenario.responseX)])%list))
    ≠ None
  ∧ error
      (app (run boot
              (Scenario.uploadThenSelect
               ++ [settle_generateContent 0 (Return Scenario.responseX)])%list))
    = None.
Proof.
  assert (Hup : uploadsWhileIdle boot
                  (Scenario.uploadThenSelect
                   ++ [settle_generateContent 0 (Return Scenario.responseX)])%list)
    by (cbn; repeat split).
  assert (Hdis : discardsWhileIdle boot
                   (Scenario.uploadThenSelect
                    ++ [settle_generateContent 0 (Return Scenario.responseX)])%list)
    by (cbn; repeat split).
  assert (Hstyled : styledImage
            (app (run boot
                    (Scenario.uploadThenSelect
                     ++ [settle_generateContent 0 (Return Scenario.responseX)])%list))
            ≠ None) by (vm_compute; discriminate).
  split; [exact Hup|]. split; [exact Hstyled|].
  exact (proj2 (styled_image_coherent _ Hup Hdis Hstyled)).
Defined.

End SessionProperties.

(** * Properties of PresetStyles.tsx and the catalog *)

Section CatalogProperties.
Import App PresetStyles.

(** X9. The catalog has eight styles with pairwise distinct ids, so the
    grid has eight buttons with distinct React keys; when the selected
    style is one of the catalog, exactly one button carries the mark, the
    one that passes that style to [onStyleSelect]; with no selected style
    no button is marked. *)
Theorem catalog_ids_distinct (style : PresetStyle) (isLoading : bool) :
  style ∈ PRESET_STYLES →
  length (render (Some style) isLoading) = 8%nat
  ∧ NoDup (key <$> render (Some style) isLoading)
  ∧ onClick <$> filter (λ b, marked b = true) (render (Some style) isLoading)
    = [style]
  ∧ filter (λ b, marked b = true) (render None isLoading) = [].
Proof.
  intros Hin. split; [reflexivity|]. split.
  - apply (bool_decide_unpack _). vm_compute. exact I.
  - split; [|reflexivity].
    unfold PRESET_STYLES in Hin.
    repeat (apply elem_of_cons in Hin as [->|Hin]; [reflexivity|]).
    now apply elem_of_nil in Hin.
Qed.

Lemma catalog_ids_distinct_witness :
  buzz_crew_cut ∈ PRESET_STYLES
  ∧ onClick <$> filter (λ b, marked b = true)
                  (render (Some buzz_crew_cut) false)
    = [buzz_crew_cut].
Proof.
  assert (Hin : buzz_crew_cut ∈ PRESET_STYLES).
  { unfold PRESET_STYLES. do 3 apply elem_of_cons, or_intror.
    apply elem_of_cons. now left. }
  split; [exact Hin|].
  exact (proj1 (proj2 (proj2 (catalog_ids_distinct buzz_crew_cut false Hin)))).
Defined.

End CatalogProperties.

(** * Further properties of CameraCapture.tsx *)

Section CameraSessionProperties.
Import CameraCapture Discipline.

Lemma step_without_stream (c : Camera) (ev : Event) :
  notGranted ev →
  stream c = None ∧ captures c = [] ∧ encoding c = 0%nat →
  stream (step c ev) = None ∧ captures (step c ev) = []
  ∧ encoding (step c ev) = 0%nat.
Proof.
  destruct c as [m st er ac es rq orp enc sp cp]; cbn.
  intros Hev (-> & -> & ->).
  destruct ev as [sup|[ms|e]|r|context|blob| | |]; try done;
    try (camera_step; done).
  cbn. destruct m; [|done].
  unfold handleCapture. cbn. now rewrite orb_true_r.
Qed.

(** X10. As long as [getUserMedia] does not resolve (it is missing, it is
    rejected, or it is still pending), no run of the dialog sets [stream]
    and none calls [onCapture]: no picture reaches the uploader. *)
Theorem no_capture_without_stream (evs : list Event) :
  Forall notGranted evs →
  stream (run closed evs) = None ∧ captures (run closed evs) = [].
Proof.
  assert (Hclosed : stream closed = None ∧ captures closed = []
                    ∧ encoding closed = 0%nat) by done.
  revert Hclosed. generalize closed as c.
  induction evs as [|ev evs IH]; intros c Hc Hevs;
    [exact (conj (proj1 Hc) (proj1 (proj2 Hc)))|].
  inversion Hevs as [|? ? Hev Hrest]; subst.
  change (run c (ev :: evs)) with (run (step c ev) evs).
  apply IH; [|done]. now apply step_without_stream.
Qed.

Lemma no_capture_without_stream_witness :
  Forall notGranted
    [ open_dialog true;
      getUserMedia_settled (Throw (mkError "NotAllowedError"));
      click_takePicture true;
      toBlob_callback (Some Scenario.snapshot);
      click_cancel ]
  ∧ captures
      (run closed
         [ open_dialog true;
           getUserMedia_settled (Throw (mkError "NotAllowedError"));
           click_takePicture true;
           toBlob_callback (Some Scenario.snapshot);
           click_cancel ]) = [].
Proof.
  assert (H : Forall notGranted
                [ open_dialog true;
                  getUserMedia_settled (Throw (mkError "NotAllowedError"));
                  click_takePicture true;
                  toBlob_callback (Some Scenario.snapshot);
                  click_cancel ]) by (repeat constructor).
  split; [exact H|]. exact (proj2 (no_capture_without_stream _ H)).
Defined.

End CameraSessionProperties.

(** * Properties of the capture canvas *)

Section CanvasProperties.
Import Canvas.
#[local] Open Scope Q_scope.

(** X12. The picture is a mirror image: under the transform that
    [handleCapture] sets up before [drawImage], the point [(x, y)] of the
    video frame is painted at [(width - x, y)].  A frame that fills
    [[0, width]] stays inside the canvas, and mirroring the result once
    more gives the frame back. *)
Theorem handleCapture_mirrors (width x y : Q) :
  0 <= x <= width →
  let painted := paintedAt (handleCapture_transform width) (x, y) in
  fst painted == width - x
  ∧ snd painted == y
  ∧ 0 <= fst painted <= width
  ∧ fst (paintedAt (handleCapture_transform width) painted) == x
  ∧ snd (paintedAt (handleCapture_transform width) painted) == y.
Proof.
  intros [H0 H1]. cbn. repeat split; try ring; try lra.
Qed.

Lemma handleCapture_mirrors_witness :
  0 <= 100 <= 640
  ∧ fst (paintedAt (handleCapture_transform 640) (100, 20)) == 540.
Proof.
  assert (H : 0 <= 100 <= 640) by (split; discriminate).
  split; [exact H|].
  pose proof (handleCapture_mirrors 640 100 20 H) as Hm.
  cbv zeta in Hm. destruct Hm as (Hx & _). rewrite Hx. reflexivity.
Defined.

End CanvasProperties.

(** * Further properties of BeforeAfterSlider.tsx *)

Section DragProperties.
Import BeforeAfterSlider Discipline.
#[local] Open Scope Q_scope.

Lemma clamp_monotone (d1 d2 w : Q) :
  d1 <= d2 → Qmax 0 (Qmin d1 w) <= Qmax 0 (Qmin d2 w).
Proof.
  intros Hd. apply Q.max_le_compat_l. now apply Q.min_le_compat_r.
Qed.

Lemma clamp_left (d w : Q) : 0 < w → d <= 0 → Qmax 0 (Qmin d w) == 0.
Proof.
  intros Hw Hd. apply Q.max_l. rewrite Q.min_l by lra. exact Hd.
Qed.

Lemma clamp_right (d w : Q) : 0 < w → w <= d → Qmax 0 (Qmin d w) == w.
Proof.
  intros Hw Hd. rewrite Q.min_r by exact Hd. apply Q.max_r. lra.
Qed.

(** X13. While dragging over a laid-out control the divider follows the
    pointer monotonically: a pointer further to the right never gives a
    smaller [sliderPos], however the arithmetic rounds. *)
Theorem handleMove_monotone (round : Q → Q) (rect : DOMRect) (x1 x2 : Q)
    (s : Slider) :
  rounding round →
  0 < width rect →
  isDragging s = true →
  x1 <= x2 →
  ∃ p1 p2 : Q,
    sliderPos (handleMove round (Some rect) x1 s) = finite p1
    ∧ sliderPos (handleMove round (Some rect) x2 s) = finite p2
    ∧ p1 <= p2.
Proof.
  intros Hround Hw Hdrag Hx. pose proof Hround as (Hmono & _).
  rewrite !handleMove_dragging by done. cbn.
  eexists _, _. split; [reflexivity|]. split; [reflexivity|].
  apply Hmono. apply Qmult_le_compat_r; [|discriminate].
  apply Hmono. unfold Qdiv. apply Qmult_le_compat_r.
  - apply clamp_monotone, Hmono. lra.
  - apply Qlt_le_weak, Qinv_lt_0_compat, Hw.
Qed.

Lemma handleMove_monotone_witness :
  rounding toNearest1024th
  ∧ 0 < width Scenario.box
  ∧ ∃ p1 p2 : Q,
      sliderPos (handleMove toNearest1024th (Some Scenario.box) 130
                   {| sliderPos := finite 50; isDragging := true |})
      = finite p1
      ∧ sliderPos (handleMove toNearest1024th (Some Scenario.box) 999
                     {| sliderPos := finite 50; isDragging := true |})
        = finite p2
      ∧ p1 <= p2.
Proof.
  assert (Hw : 0 < width Scenario.box) by reflexivity.
  split; [exact rounding_toNearest1024th|]. split; [exact Hw|].
  apply (handleMove_monotone toNearest1024th Scenario.box 130 999
           {| sliderPos := finite 50; isDragging := true |}
           rounding_toNearest1024th Hw eq_refl).
  discriminate.
Defined.

(** X14. The divider saturates at the edges: while dragging over a
    laid-out control, a pointer at or left of the left edge of the control
    sets [sliderPos] to 0, and a pointer at or right of its right edge sets
    it to 100, however the arithmetic rounds. *)
Theorem divider_saturates (round : Q → Q) (rect : DOMRect) (clientX : Q)
    (s : Slider) :
  rounding round →
  round (width rect) == width rect →
  0 < width rect →
  isDragging s = true →
  (clientX <= left rect →
   ∃ p, sliderPos (handleMove round (Some rect) clientX s) = finite p
        ∧ p == 0)
  ∧ (left rect + width rect <= clientX →
     ∃ p, sliderPos (handleMove round (Some rect) clientX s) = finite p
          ∧ p == 100).
Proof.
  intros Hround Hdouble Hw Hdrag.
  pose proof Hround as (Hmono & H0 & H1 & H100).
  rewrite handleMove_dragging by done. cbn.
  assert (Hne : ¬ width rect == 0) by lra.
  split.
  - intros Hl. eexists. split; [reflexivity|].
    assert (Hd : round (clientX - left rect) <= 0).
    { assert (Hle : clientX - left rect <= 0) by lra.
      pose proof (Hmono _ _ Hle). lra. }
    assert (Hq : round (Qmax 0 (Qmin (round (clientX - left rect))
                                  (width rect)) / width rect) == 0).
    { apply Qeq_trans with (round 0); [|exact H0].
      apply (round_eq round _ _ Hround).
      rewrite (clamp_left _ _ Hw Hd). field. exact Hne. }
    apply Qeq_trans with (round 0); [|exact H0].
    apply (round_eq round _ _ Hround). rewrite Hq. ring.
  - intros Hr. eexists. split; [reflexivity|].
    assert (Hd : width rect <= round (clientX - left rect)).
    { assert (Hle : width rect <= clientX - left rect) by lra.
      pose proof (Hmono _ _ Hle). lra. }
    assert (Hq : round (Qmax 0 (Qmin (round (clientX - left rect))
                                  (width rect)) / width rect) == 1).
    { apply Qeq_trans with (round 1); [|exact H1].
      apply (round_eq round _ _ Hround).
      rewrite (clamp_right _ _ Hw Hd). field. exact Hne. }
    apply Qeq_trans with (round 100); [|exact H100].
    apply (round_eq round _ _ Hround). rewrite Hq. ring.
Qed.

Lemma divider_saturates_witness :
  rounding toNearest1024th
  ∧ toNearest1024th (width Scenario.box) == width Scenario.box
  ∧ ∃ p, sliderPos (handleMove toNearest1024th (Some Scenario.box) 999
                      {| sliderPos := finite 50; isDragging := true |})
         = finite p
         ∧ p == 100.
Proof.
  assert (Hw : 0 < width Scenario.box) by reflexivity.
  assert (Hd : toNearest1024th (width Scenario.box) == width Scenario.box)
    by reflexivity.
  split; [exact rounding_toNearest1024th|]. split; [exact Hd|].
  apply (divider_saturates toNearest1024th Scenario.box 999
           {| sliderPos := finite 50; isDragging := true |}
           rounding_toNearest1024th Hd Hw eq_refl).
  discriminate.
Defined.




End DragProperties.

(** * What user actions never do *)

Section NoCancellation.
Import App.

(** X16. There is no cancellation: whatever the user does, every promise
    that was pending is still pending afterwards, in the same order, and at
    most one new promise is added.  Only a settlement removes one. *)
Theorem user_events_never_cancel (sys : System) (e : UserEvent) :
  ∃ added : list Task,
    tasks (step sys (user e)) = (tasks sys ++ added)%list
    ∧ (length added ≤ 1)%nat.
Proof.
  unfold step. rewrite rerender_tasks.
  assert (Hnone : ∃ added : list Task,
             tasks sys = (tasks sys ++ added)%list ∧ (length added ≤ 1)%nat).
  { exists []. rewrite app_nil_r. split; [done | cbn; lia]. }
  destruct e as [file|file| | |file|style|]; unfold deliver;
    repeat match goal with
           | |- context [if ?b then _ else _] => destruct b
           end; try exact Hnone; cbn.
  - eexists. split; [reflexivity | cbn; lia].
  - eexists. split; [reflexivity | cbn; lia].
  - eexists. split; [reflexivity | cbn; lia].
  - unfold call_handleStyleSelect.
    destruct (handleStyleSelect_begin _ _) as [calls [request|]]; cbn.
    + eexists. split; [reflexivity | cbn; lia].
    + exists []. split; [reflexivity | cbn; lia].
Qed.

End NoCancellation.

Section CameraViewProperties.
Import CameraCapture.

Lemma step_stream_or_error (c : Camera) (ev : Event) :
  (stream c ≠ None → error c = None)
  ∧ (requesting c = true → stream c = None) →
  (stream (step c ev) ≠ None → error (step c ev) = None)
  ∧ (requesting (step c ev) = true → stream (step c ev) = None).
Proof.
  destruct c as [m st er ac es rq orp enc sp cp]; cbn.
  intros [Hse Hreq].
  destruct ev as [sup|r|r|context|blob| | |]; camera_step;
    try (split; [exact Hse | exact Hreq]);
    try (split; [exact Hse | discriminate]);
    try (split; [intros _; reflexivity | discriminate]);
    try (split; [intros H; now destruct H | reflexivity]);
    try (split; [intros H; now destruct H | discriminate]).
  all: try (apply andb_prop in Heqb as [_ ->]; rewrite Hreq by reflexivity;
            split; [intros H; now destruct H | discriminate]).
  split; [intros _ | discriminate].
  apply andb_prop in Heqb0 as [_ Hvideo].
  apply andb_prop in Hvideo as [_ Herror]. now destruct er.
Qed.

(** X17. On every run of the dialog the live stream and the error message
    exclude each other: when [stream] is set, [error] is null, so the
    dialog never holds a stream while it shows an error. *)
Theorem stream_excludes_error (evs : list Event) :
  stream (run closed evs) ≠ None → error (run closed evs) = None.
Proof.
  assert (H : ∀ c,
    (stream c ≠ None → error c = None)
    ∧ (requesting c = true → stream c = None) →
    (stream (run c evs) ≠ None → error (run c evs) = None)
    ∧ (requesting (run c evs) = true → stream (run c evs) = None)).
  { induction evs as [|ev evs IH]; intros c Hc; [exact Hc|].
    change (run c (ev :: evs)) with (run (step c ev) evs).
    apply IH. now apply step_stream_or_error. }
  apply H. split; done.
Qed.

Lemma stream_excludes_error_witness :
  stream (run closed Scenario.granted) ≠ None
  ∧ error (run closed Scenario.granted) = None.
Proof.
  assert (H : stream (run closed Scenario.granted) ≠ None)
    by (vm_compute; discriminate).
  split; [exact H | exact (stream_excludes_error Scenario.granted H)].
Defined.

End CameraViewProperties.
